(** * fill_quad_on_window usage example: the script and its library calls

    The repository holds one Python script,
    [public/usage-examples/graphics/fill_quad_on_window-1-example.py].  It is a
    straight-line sequence of calls into the SplashKit library.  This file
    embeds the script statement by statement, gives the fragment of Python it
    is written in an executable semantics against an arbitrary library, and
    proves the properties of the sequence of library calls the script makes. *)

From Stdlib Require Import ZArith.
From stdpp Require Import gmap strings list sorting.

Local Open Scope Z_scope.
Local Open Scope string_scope.

(** ** Syntax of the script *)

(** The library functions that the script calls.  They are brought into the
    global namespace by [from splashkit import *]; the script never assigns to
    any of these names (lemma [targets_not_library_names] below). *)
Inductive libfn : Set :=
  | quad_from
  | open_window
  | move_window_to
  | window_width
  | clear_screen
  | color_white
  | color_black
  | color_green
  | color_red
  | color_blue
  | fill_quad_on_window
  | refresh_screen
  | delay
  | close_all_windows.

#[global] Instance libfn_eq_dec : EqDecision libfn.
Proof. solve_decision. Defined.

Definition libfn_name (f : libfn) : string :=
  match f with
  | quad_from => "quad_from"
  | open_window => "open_window"
  | move_window_to => "move_window_to"
  | window_width => "window_width"
  | clear_screen => "clear_screen"
  | color_white => "color_white"
  | color_black => "color_black"
  | color_green => "color_green"
  | color_red => "color_red"
  | color_blue => "color_blue"
  | fill_quad_on_window => "fill_quad_on_window"
  | refresh_screen => "refresh_screen"
  | delay => "delay"
  | close_all_windows => "close_all_windows"
  end.

Definition all_libfns : list libfn :=
  [quad_from; open_window; move_window_to; window_width; clear_screen;
   color_white; color_black; color_green; color_red; color_blue;
   fill_quad_on_window; refresh_screen; delay; close_all_windows].

(** Expressions of the script: integer literals, string literals, global
    names, and calls of a library function on argument expressions.  The
    script has no operator, no attribute access and no other expression
    form. *)
Unset Elimination Schemes.
Inductive expr : Set :=
  | ENum (n : Z)
  | EStr (s : string)
  | EName (x : string)
  | ECall (f : libfn) (args : list expr).
Set Elimination Schemes.

(** Statements of the script: [x = e] and the expression statement [e]. *)
Inductive stmt : Set :=
  | SAssign (x : string) (e : expr)
  | SExpr (e : expr).

(** The module body, line by line (the import and the comments left out). *)
Definition script : list stmt :=
  [ SAssign "q1" (ECall quad_from
      [ENum 400; ENum 200; ENum 300; ENum 300; ENum 300; ENum 0; ENum 200; ENum 200]);
    SAssign "q2" (ECall quad_from
      [ENum 400; ENum 210; ENum 310; ENum 300; ENum 600; ENum 300; ENum 400; ENum 390]);
    SAssign "q3" (ECall quad_from
      [ENum 200; ENum 400; ENum 300; ENum 300; ENum 300; ENum 600; ENum 400; ENum 400]);
    SAssign "q4" (ECall quad_from
      [ENum 200; ENum 390; ENum 290; ENum 300; ENum 0; ENum 300; ENum 200; ENum 210]);
    SAssign "window1" (ECall open_window
      [EStr "Filled Diamond On Window 1"; ENum 600; ENum 600]);
    SAssign "window2" (ECall open_window
      [EStr "Filled Diamond On Window 2"; ENum 600; ENum 600]);
    SExpr (ECall move_window_to [EName "window1"; ENum 0; ENum 0]);
    SExpr (ECall move_window_to
      [EName "window2"; ECall window_width [EName "window1"]; ENum 0]);
    SExpr (ECall clear_screen [ECall color_white []]);
    SExpr (ECall fill_quad_on_window
      [EName "window1"; ECall color_black []; EName "q1"]);
    SExpr (ECall fill_quad_on_window
      [EName "window1"; ECall color_green []; EName "q2"]);
    SExpr (ECall fill_quad_on_window
      [EName "window2"; ECall color_red []; EName "q3"]);
    SExpr (ECall fill_quad_on_window
      [EName "window2"; ECall color_blue []; EName "q4"]);
    SExpr (ECall refresh_screen []);
    SExpr (ECall delay [ENum 5000]);
    SExpr (ECall close_all_windows []) ].


(** ** Reading the script *)

Definition stmt_expr (s : stmt) : expr :=
  match s with
  | SAssign _ e => e
  | SExpr e => e
  end.

Definition stmt_target (s : stmt) : option string :=
  match s with
  | SAssign x _ => Some x
  | SExpr _ => None
  end.

(** An argument that needs no computation: a literal or a name. *)
Definition is_atom (e : expr) : bool :=
  match e with
  | ECall _ _ => false
  | _ => true
  end.

(** The call a statement consists of, if it is a call. *)
Definition top_call (s : stmt) : option (libfn * list expr) :=
  match stmt_expr s with
  | ECall f args => Some (f, args)
  | _ => None
  end.

Definition top_calls (ss : list stmt) : list (libfn * list expr) :=
  omap top_call ss.

(** All calls of an expression in the order Python makes them: the calls
    inside the arguments, left to right, then the call itself. *)
Fixpoint calls_of (e : expr) : list (libfn * list expr) :=
  match e with
  | ECall f args => concat (map calls_of args) ++ [(f, args)]
  | _ => []
  end.

Definition calls_of_script (ss : list stmt) : list (libfn * list expr) :=
  concat (map (λ s, calls_of (stmt_expr s)) ss).

(** The calls that occur as an argument of another call. *)
Definition nested_calls (ss : list stmt) : list (libfn * list expr) :=
  concat (map (λ c, concat (map calls_of c.2)) (top_calls ss)).

(** The names of the functions the script calls, in call order. *)
Definition script_fns : list libfn := map fst (calls_of_script script).

(** An argument is shallow when it is an atom or a call on atoms. *)
Definition is_shallow (e : expr) : bool :=
  match e with
  | ECall _ args => forallb is_atom args
  | _ => true
  end.

(** *** The eight steps of the overview *)

Inductive step : Set :=
  | QuadConstruction
  | WindowCreation
  | WindowRepositioning
  | ScreenClear
  | FillOperation
  | ScreenRefresh
  | TimedDelay
  | WindowTeardown.

#[global] Instance step_eq_dec : EqDecision step.
Proof. solve_decision. Defined.

Definition all_steps : list step :=
  [QuadConstruction; WindowCreation; WindowRepositioning; ScreenClear;
   FillOperation; ScreenRefresh; TimedDelay; WindowTeardown].

Definition step_index (st : step) : nat :=
  match st with
  | QuadConstruction => 1
  | WindowCreation => 2
  | WindowRepositioning => 3
  | ScreenClear => 4
  | FillOperation => 5
  | ScreenRefresh => 6
  | TimedDelay => 7
  | WindowTeardown => 8
  end.

(** The step a library function carries out.  [window_width] and the color
    constants carry out no step of their own: the script calls them only to
    compute an argument. *)
Definition step_of (f : libfn) : option step :=
  match f with
  | quad_from => Some QuadConstruction
  | open_window => Some WindowCreation
  | move_window_to => Some WindowRepositioning
  | clear_screen => Some ScreenClear
  | fill_quad_on_window => Some FillOperation
  | refresh_screen => Some ScreenRefresh
  | delay => Some TimedDelay
  | close_all_windows => Some WindowTeardown
  | window_width
  | color_white | color_black | color_green | color_red | color_blue => None
  end.

Definition stmt_step (s : stmt) : option step :=
  match top_call s with
  | Some (f, _) => step_of f
  | None => None
  end.

(** The order the overview lists the steps in, with the number of
    statements of each. *)
Definition eight_steps : list step :=
  replicate 4 QuadConstruction ++ replicate 2 WindowCreation ++
  replicate 2 WindowRepositioning ++ [ScreenClear] ++
  replicate 4 FillOperation ++ [ScreenRefresh; TimedDelay; WindowTeardown].

Definition count_step (st : step) (ss : list stmt) : nat :=
  length (filter (λ s, stmt_step s = Some st) ss).

(** *** Coordinates and colors *)

Definition literal_int (e : expr) : option Z :=
  match e with
  | ENum n => Some n
  | _ => None
  end.

(** Consecutive numbers read as (x, y) pairs. *)
Fixpoint pairs (l : list Z) : list (Z * Z) :=
  match l with
  | x :: y :: l' => (x, y) :: pairs l'
  | _ => []
  end.

(** The argument lists of the [quad_from] calls. *)
Definition quad_args (ss : list stmt) : list (list expr) :=
  map snd (filter (λ c, c.1 = quad_from) (calls_of_script ss)).

(** The coordinate pairs of each quad, quad by quad. *)
Definition quad_pairs (ss : list stmt) : list (list (Z * Z)) :=
  map (λ args, pairs (omap literal_int args)) (quad_args ss).

Definition quad_coordinate_pairs (ss : list stmt) : list (Z * Z) :=
  concat (quad_pairs ss).

(** The integer literals given to the other calls. *)
Definition other_literals (ss : list stmt) : list (libfn * list Z) :=
  filter (λ c, c.2 ≠ [])
    (map (λ c, (c.1, omap literal_int c.2))
       (filter (λ c, c.1 ≠ quad_from) (calls_of_script ss))).

Definition is_color (f : libfn) : bool :=
  match f with
  | color_white | color_black | color_green | color_red | color_blue => true
  | _ => false
  end.

(** The color constants the script uses, each listed once. *)
Definition colors_used (ss : list stmt) : list libfn :=
  remove_dups (filter (λ f, is_color f = true) (map fst (calls_of_script ss))).

(** The color constant in the argument list of a call, if there is one. *)
Definition color_args (args : list expr) : list libfn :=
  filter (λ f, is_color f = true) (map fst (concat (map calls_of args))).

(** The claims of the data model and of the component design, as they are
    worded. *)
Definition eight_coordinate_pairs (ss : list stmt) : Prop :=
  length (quad_coordinate_pairs ss) = 8%nat.

Definition four_color_constants (ss : list stmt) : Prop :=
  length (colors_used ss) = 4%nat.

Definition one_call_per_step (ss : list stmt) : Prop :=
  ∀ st, count_step st ss = 1%nat.

Definition args_not_computed (ss : list stmt) : Prop :=
  Forall (λ c, Forall (λ a, is_atom a = true) c.2) (top_calls ss).

Local Close Scope string_scope.

(** ** Values, library and events *)

(** Run-time values.  [obj] is the type of the objects the library hands
    out (quads, window handles, colors); the script never looks inside
    them. *)
Inductive value (obj : Type) : Type :=
  | VInt (n : Z)
  | VStr (s : string)
  | VNone
  | VObj (o : obj).
Arguments VInt {obj} n.
Arguments VStr {obj} s.
Arguments VNone {obj}.
Arguments VObj {obj} o.

(** What a library call does: it returns a value or raises. *)
Inductive answer (obj : Type) : Type :=
  | Returns (v : value obj)
  | Raises.
Arguments Returns {obj} v.
Arguments Raises {obj}.

(** The external library: any function from the called name, the argument
    values and the library's own state to a new state and an answer. *)
Definition library (S obj : Type) : Type :=
  libfn → list (value obj) → S → S * answer obj.

(** One library call as seen from the script. *)
Record event (obj : Type) : Type := Event {
  ev_fn : libfn;
  ev_args : list (value obj);
  ev_ret : answer obj
}.
Arguments Event {obj} ev_fn ev_args ev_ret.
Arguments ev_fn {obj} e.
Arguments ev_args {obj} e.
Arguments ev_ret {obj} e.

Inductive exn : Set :=
  | NameError (x : string)
  | LibraryError (f : libfn).

Inductive result (A : Type) : Type :=
  | Ok (a : A)
  | Raise (e : exn).
Arguments Ok {A} a.
Arguments Raise {A} e.

(** The interpreter state: the module's global namespace and the state of
    the library. *)
Record state (S obj : Type) : Type := State {
  globals : gmap string (value obj);
  lib_state : S
}.
Arguments State {S obj} globals lib_state.
Arguments globals {S obj} s.
Arguments lib_state {S obj} s.

(** ** Semantics *)

(** A computation returns a result, the new state and the library calls it
    made, oldest first.  An exception ends the computation: nothing in the
    script catches it. *)
Definition M (S obj A : Type) : Type :=
  state S obj → result A * state S obj * list (event obj).

Definition ret {S obj A} (a : A) : M S obj A := λ st, (Ok a, st, []).

Definition bind {S obj A B} (m : M S obj A) (k : A → M S obj B) : M S obj B :=
  λ st,
    match m st with
    | (Ok a, st1, tr1) =>
        match k a st1 with
        | (r, st2, tr2) => (r, st2, tr1 ++ tr2)
        end
    | (Raise e, st1, tr1) => (Raise e, st1, tr1)
    end.

Notation "'let*' x := m 'in' k" := (bind m (λ x, k))
  (at level 10, x name, m at level 100, k at level 200).

(** Reading a global name; an unbound name is a [NameError]. *)
Definition lookup_name {S obj} (x : string) : M S obj (value obj) := λ st,
  match globals st !! x with
  | Some v => (Ok v, st, [])
  | None => (Raise (NameError x), st, [])
  end.

Definition set_global {S obj} (x : string) (v : value obj) : M S obj unit :=
  λ st, (Ok tt, State (<[x := v]> (globals st)) (lib_state st), []).

(** Arguments are evaluated left to right. *)
Definition mapM {S obj A B} (f : A → M S obj B) : list A → M S obj (list B) :=
  fix go (l : list A) : M S obj (list B) :=
    match l with
    | [] => ret []
    | a :: l' => let* b := f a in let* bs := go l' in ret (b :: bs)
    end.

Section Semantics.
Context {S obj : Type}.
Variable lib : library S obj.

(** A library call is recorded whether it returns or raises. *)
Definition call_lib (f : libfn) (vs : list (value obj)) : M S obj (value obj) :=
  λ st,
    match lib f vs (lib_state st) with
    | (s', Returns v) =>
        (Ok v, State (globals st) s', [Event f vs (Returns v)])
    | (s', Raises) =>
        (Raise (LibraryError f), State (globals st) s', [Event f vs Raises])
    end.

Fixpoint eval (e : expr) : M S obj (value obj) :=
  match e with
  | ENum n => ret (VInt n)
  | EStr s => ret (VStr s)
  | EName x => lookup_name x
  | ECall f args => let* vs := mapM eval args in call_lib f vs
  end.

Definition exec_stmt (s : stmt) : M S obj unit :=
  match s with
  | SAssign x e => let* v := eval e in set_global x v
  | SExpr e => let* _ := eval e in ret tt
  end.

Fixpoint exec (ss : list stmt) : M S obj unit :=
  match ss with
  | [] => ret tt
  | s :: ss' => let* _ := exec_stmt s in exec ss'
  end.

(** Running the script from an empty namespace. *)
Definition run (s0 : S) : result unit * state S obj * list (event obj) :=
  exec script (State ∅ s0).

Definition run_result (s0 : S) : result unit := (run s0).1.1.
Definition run_globals (s0 : S) : gmap string (value obj) := globals (run s0).1.2.
Definition run_trace (s0 : S) : list (event obj) := (run s0).2.

(** The library never raises. *)
Definition never_raises : Prop :=
  ∀ f vs s, (lib f vs s).2 ≠ Raises.

End Semantics.

(** ** Observations on traces *)

Section Traces.
Context {obj : Type}.

Definition trace_fns (tr : list (event obj)) : list libfn := map ev_fn tr.

Definition count_fn (f : libfn) (tr : list (event obj)) : nat :=
  length (filter (λ ev, ev_fn ev = f) tr).

Definition returned (ev : event obj) : option (value obj) :=
  match ev_ret ev with
  | Returns v => Some v
  | Raises => None
  end.

(** The values that the calls of [f] returned, in call order. *)
Definition returns_of (f : libfn) (tr : list (event obj)) : list (value obj) :=
  omap returned (filter (λ ev, ev_fn ev = f) tr).

(** The window argument of a call: its first argument. *)
Definition window_arg (ev : event obj) : option (value obj) :=
  head (ev_args ev).

(** The library functions that take a window as their first argument. *)
Definition takes_window (f : libfn) : bool :=
  match f with
  | move_window_to | window_width | fill_quad_on_window => true
  | _ => false
  end.

(** Every window argument in [tr] is in [opened] or was returned by an
    earlier [open_window] call of [tr]. *)
Fixpoint windows_known (opened : list (value obj)) (tr : list (event obj)) : Prop :=
  match tr with
  | [] => True
  | ev :: tr' =>
      (takes_window (ev_fn ev) = true →
       ∃ w rest, ev_args ev = w :: rest ∧ w ∈ opened) ∧
      windows_known (opened ++ returns_of open_window [ev]) tr'
  end.

(** *** The trace of a run, call by call

    [full_trace v] is the trace of a run in which the library returns
    [v 0], [v 1], ... from the successive calls. *)
Definition full_trace (v : nat → value obj) : list (event obj) :=
  [ Event quad_from
      [VInt 400; VInt 200; VInt 300; VInt 300; VInt 300; VInt 0; VInt 200; VInt 200]
      (Returns (v 0%nat));
    Event quad_from
      [VInt 400; VInt 210; VInt 310; VInt 300; VInt 600; VInt 300; VInt 400; VInt 390]
      (Returns (v 1%nat));
    Event quad_from
      [VInt 200; VInt 400; VInt 300; VInt 300; VInt 300; VInt 600; VInt 400; VInt 400]
      (Returns (v 2%nat));
    Event quad_from
      [VInt 200; VInt 390; VInt 290; VInt 300; VInt 0; VInt 300; VInt 200; VInt 210]
      (Returns (v 3%nat));
    Event open_window [VStr "Filled Diamond On Window 1"; VInt 600; VInt 600]
      (Returns (v 4%nat));
    Event open_window [VStr "Filled Diamond On Window 2"; VInt 600; VInt 600]
      (Returns (v 5%nat));
    Event move_window_to [v 4%nat; VInt 0; VInt 0] (Returns (v 6%nat));
    Event window_width [v 4%nat] (Returns (v 7%nat));
    Event move_window_to [v 5%nat; v 7%nat; VInt 0] (Returns (v 8%nat));
    Event color_white [] (Returns (v 9%nat));
    Event clear_screen [v 9%nat] (Returns (v 10%nat));
    Event color_black [] (Returns (v 11%nat));
    Event fill_quad_on_window [v 4%nat; v 11%nat; v 0%nat] (Returns (v 12%nat));
    Event color_green [] (Returns (v 13%nat));
    Event fill_quad_on_window [v 4%nat; v 13%nat; v 1%nat] (Returns (v 14%nat));
    Event color_red [] (Returns (v 15%nat));
    Event fill_quad_on_window [v 5%nat; v 15%nat; v 2%nat] (Returns (v 16%nat));
    Event color_blue [] (Returns (v 17%nat));
    Event fill_quad_on_window [v 5%nat; v 17%nat; v 3%nat] (Returns (v 18%nat));
    Event refresh_screen [] (Returns (v 19%nat));
    Event delay [VInt 5000] (Returns (v 20%nat));
    Event close_all_windows [] (Returns (v 21%nat)) ].

(** A call that raised instead of returning. *)
Definition raised (ev : event obj) : event obj :=
  Event (ev_fn ev) (ev_args ev) Raises.

(** The trace of a run that the library cut short at call number [n]. *)
Definition cut_trace (v : nat → value obj) (n : nat) : list (event obj) :=
  match full_trace v !! n with
  | Some ev => take n (full_trace v) ++ [raised ev]
  | None => full_trace v
  end.

Definition final_globals (v : nat → value obj) : gmap string (value obj) :=
  <["window2" := v 5%nat]> (<["window1" := v 4%nat]>
    (<["q4" := v 3%nat]> (<["q3" := v 2%nat]>
      (<["q2" := v 1%nat]> (<["q1" := v 0%nat]> ∅))))).

End Traces.

(** Two computations, run against two libraries, are in step: from states
    with the same globals, if the libraries give the same answers then both
    make the same calls with the same arguments and end alike.  [rest1] and
    [rest2] stand for the answers given after the computation. *)
Definition same_run {S1 S2 obj A} (m1 : M S1 obj A) (m2 : M S2 obj A) : Prop :=
  ∀ st1 st2 rest1 rest2,
    globals st1 = globals st2 →
    map ev_ret (m1 st1).2 ++ rest1 = map ev_ret (m2 st2).2 ++ rest2 →
    (m1 st1).1.1 = (m2 st2).1.1 ∧
    (m1 st1).2 = (m2 st2).2 ∧
    globals (m1 st1).1.2 = globals (m2 st2).1.2.


(** A small library for concrete runs: objects are numbered in the order
    they are handed out, every window is 600 wide. *)
Definition demo_lib : library nat nat := λ f vs n,
  match f with
  | quad_from | open_window
  | color_white | color_black | color_green | color_red | color_blue =>
      (Datatypes.S n, Returns (VObj n))
  | window_width => (n, Returns (VInt 600))
  | move_window_to | clear_screen | fill_quad_on_window
  | refresh_screen | delay | close_all_windows => (n, Returns VNone)
  end.


(** The same library with a call counter in its state: another state
    type, the same answers. *)
Definition counting_lib : library (nat * nat) nat := λ f vs s,
  match demo_lib f vs s.1 with
  | (n', a) => ((n', Datatypes.S s.2), a)
  end.

(** A library in which opening a window fails. *)
Definition no_display_lib : library nat nat := λ f vs n,
  match f with
  | open_window => (n, Raises)
  | _ => demo_lib f vs n
  end.

(** A library in which the timed delay fails: by then both windows are
    open and the picture is on screen. *)
Definition delay_fails_lib : library nat nat := λ f vs n,
  match f with
  | delay => (n, Raises)
  | _ => demo_lib f vs n
  end.

(** ** Further readings of the script and of its traces *)

(** The names an expression reads. *)
Fixpoint names_of (e : expr) : list string :=
  match e with
  | EName x => [x]
  | ECall _ args => concat (map names_of args)
  | _ => []
  end.

(** Every name a statement reads is in [bound] or is the target of an
    earlier statement. *)
Fixpoint bound_before_use (bound : list string) (ss : list stmt) : bool :=
  match ss with
  | [] => true
  | s :: ss' =>
      forallb (λ x, bool_decide (x ∈ bound)) (names_of (stmt_expr s)) &&
      bound_before_use (bound ++ option_list (stmt_target s)) ss'
  end.

(** The (width, height) literals of the [open_window] calls. *)
Definition window_sizes (ss : list stmt) : list (Z * Z) :=
  concat (map (λ c, pairs (omap literal_int c.2))
            (filter (λ c, c.1 = open_window) (calls_of_script ss))).


Section Calls.
Context {obj : Type}.

(** [P seen ev] holds of every call [ev] of [tr], where [seen] is the list
    of the calls made before it. *)
Fixpoint each_call (P : list (event obj) → event obj → Prop)
    (seen tr : list (event obj)) : Prop :=
  match tr with
  | [] => True
  | ev :: tr' => P seen ev ∧ each_call P (seen ++ [ev]) tr'
  end.

(** A drawing call receives objects that the library made: a fill gets a
    quad returned by an earlier [quad_from] and the color returned by the
    call just before it, which is a color constant; [clear_screen] gets the
    color returned by the call just before it, which is [color_white]. *)
Definition well_sourced (seen : list (event obj)) (ev : event obj) : Prop :=
  (ev_fn ev = fill_quad_on_window →
   ∃ w c q ev',
     ev_args ev = [w; c; q] ∧ q ∈ returns_of quad_from seen ∧
     last seen = Some ev' ∧ is_color (ev_fn ev') = true ∧
     ev_ret ev' = Returns c) ∧
  (ev_fn ev = clear_screen →
   ∃ c, ev_args ev = [c] ∧
        last seen = Some (Event color_white [] (Returns c))).

(** A fill comes after the one [clear_screen], which returned, and before
    any [refresh_screen]. *)
Definition drawn_on_cleared (seen : list (event obj)) (ev : event obj) : Prop :=
  ev_fn ev = fill_quad_on_window →
  length (returns_of clear_screen seen) = 1%nat ∧
  count_fn refresh_screen seen = 0%nat.

End Calls.

(** The window lifecycle as the resource model words it: the run ends
    with the one [close_all_windows] call, after both [open_window] calls. *)
Definition closes_windows_last {S obj} (lib : library S obj) (s0 : S) : Prop :=
  ∃ pre ev,
    run_trace lib s0 = pre ++ [ev] ∧
    ev_fn ev = close_all_windows ∧
    count_fn open_window pre = 2%nat ∧
    count_fn close_all_windows pre = 0%nat.

(** Running the script in a namespace that already holds bindings: the
    names that [from splashkit import *] has put there, and the names every
    Python module starts with. *)
Definition run_from {S obj} (lib : library S obj)
    (g0 : gmap string (value obj)) (s0 : S) :
    result unit * state S obj * list (event obj) :=
  exec lib script (State g0 s0).

(** A namespace as Python sets it up for a module run as a program. *)
Definition main_namespace : gmap string (value nat) :=
  {[ "__name__"%string := VStr "__main__" ]}.

(** * Properties *)

(** ** The fragment of Python: induction and determinism *)

Lemma expr_ind (P : expr → Prop) :
  (∀ n, P (ENum n)) →
  (∀ s, P (EStr s)) →
  (∀ x, P (EName x)) →
  (∀ f args, Forall P args → P (ECall f args)) →
  ∀ e, P e.
Proof.
  intros Hnum Hstr Hname Hcall. fix IH 1.
  intros [n|s|x|f args]; [apply Hnum|apply Hstr|apply Hname|].
  apply Hcall. induction args as [|a args IHargs].
  - constructor.
  - constructor; [apply IH|exact IHargs].
Qed.

Section Determinism.
Context {S1 S2 obj : Type}.
Variable lib1 : library S1 obj.
Variable lib2 : library S2 obj.

Lemma same_run_ret {A} (a : A) :
  same_run (ret (S:=S1) (obj:=obj) a) (ret (S:=S2) a).
Proof. intros st1 st2 rest1 rest2 Hg _. simpl. auto. Qed.

Lemma same_run_bind {A B} (m1 : M S1 obj A) (m2 : M S2 obj A)
    (k1 : A → M S1 obj B) (k2 : A → M S2 obj B) :
  same_run m1 m2 →
  (∀ a, same_run (k1 a) (k2 a)) →
  same_run (bind m1 k1) (bind m2 k2).
Proof.
  intros Hm Hk st1 st2 rest1 rest2 Hg. unfold bind.
  specialize (Hm st1 st2).
  destruct (m1 st1) as [[r1 st1'] tr1], (m2 st2) as [[r2 st2'] tr2].
  simpl in Hm.
  destruct r1 as [a1|e1], r2 as [a2|e2].
  - specialize (Hk a1 st1').
    destruct (k1 a1 st1') as [[r1' st1''] tr1'] eqn:E1.
    destruct (k2 a2 st2') as [[r2' st2''] tr2'] eqn:E2.
    simpl. rewrite !map_app, <- !app_assoc. intros Heq.
    destruct (Hm _ _ Hg Heq) as (Hr & -> & Hg').
    injection Hr as <-. apply app_inv_head in Heq.
    specialize (Hk st2' rest1 rest2 Hg'). rewrite E2 in Hk. simpl in Hk.
    destruct (Hk Heq) as (-> & -> & ->). auto.
  - destruct (k1 a1 st1') as [[r1' st1''] tr1'].
    simpl. rewrite map_app, <- app_assoc. intros Heq.
    destruct (Hm _ _ Hg Heq) as (Hr & _). discriminate.
  - destruct (k2 a2 st2') as [[r2' st2''] tr2'].
    simpl. rewrite map_app, <- app_assoc. intros Heq.
    destruct (Hm _ _ Hg Heq) as (Hr & _). discriminate.
  - simpl. intros Heq.
    destruct (Hm _ _ Hg Heq) as (Hr & -> & ->). injection Hr as ->. auto.
Qed.

Lemma same_run_lookup_name x :
  same_run (lookup_name (S:=S1) (obj:=obj) x) (lookup_name (S:=S2) x).
Proof.
  intros st1 st2 rest1 rest2 Hg _. unfold lookup_name. rewrite Hg.
  destruct (globals st2 !! x); simpl; auto.
Qed.

Lemma same_run_set_global x (v : value obj) :
  same_run (set_global (S:=S1) x v) (set_global (S:=S2) x v).
Proof.
  intros st1 st2 rest1 rest2 Hg _. unfold set_global. simpl.
  rewrite Hg. auto.
Qed.

Lemma same_run_call_lib f vs :
  same_run (call_lib lib1 f vs) (call_lib lib2 f vs).
Proof.
  intros st1 st2 rest1 rest2 Hg. unfold call_lib.
  destruct (lib1 f vs (lib_state st1)) as [s1' [v1|]],
           (lib2 f vs (lib_state st2)) as [s2' [v2|]];
    simpl; intros Heq; try discriminate; auto.
  injection Heq as -> _. auto.
Qed.

Lemma same_run_mapM {A B} (f1 : A → M S1 obj B) (f2 : A → M S2 obj B) l :
  Forall (λ a, same_run (f1 a) (f2 a)) l →
  same_run (mapM f1 l) (mapM f2 l).
Proof.
  induction 1 as [|a l Ha _ IH]; simpl.
  - apply same_run_ret.
  - apply same_run_bind; [exact Ha|]. intros b.
    apply same_run_bind; [exact IH|]. intros bs. apply same_run_ret.
Qed.

Lemma same_run_eval e : same_run (eval lib1 e) (eval lib2 e).
Proof.
  induction e as [n|s|x|f args IH] using expr_ind; simpl.
  - apply same_run_ret.
  - apply same_run_ret.
  - apply same_run_lookup_name.
  - apply same_run_bind; [by apply same_run_mapM|].
    intros vs. apply same_run_call_lib.
Qed.

Lemma same_run_exec_stmt s : same_run (exec_stmt lib1 s) (exec_stmt lib2 s).
Proof.
  destruct s as [x e|e]; simpl.
  - apply same_run_bind; [apply same_run_eval|].
    intros v. apply same_run_set_global.
  - apply same_run_bind; [apply same_run_eval|].
    intros v. apply same_run_ret.
Qed.

Lemma same_run_exec ss : same_run (exec lib1 ss) (exec lib2 ss).
Proof.
  induction ss as [|s ss IH]; simpl.
  - apply same_run_ret.
  - apply same_run_bind; [apply same_run_exec_stmt|]. intros _. exact IH.
Qed.

End Determinism.

(** ** Running the script against an arbitrary library *)

(** Symbolic execution of the interpreter in a hypothesis [HR], up to the
    next library call; the global namespace stays a chain of inserts. *)
Ltac run_to_call HR :=
  cbv beta iota delta [run script exec exec_stmt eval mapM bind ret call_lib
                       lookup_name set_global globals lib_state app] in HR;
  repeat (first [ rewrite lookup_insert_eq in HR
                | rewrite lookup_insert_ne in HR by done ];
          cbv beta iota delta [app] in HR).

(** Case analysis on the answer of the next library call. *)
Ltac next_call lib HR :=
  match type of HR with
  | context [lib ?f ?a ?s] =>
      let E := fresh "E" in
      destruct (lib f a s) as [? [?|]] eqn:E; run_to_call HR
  end.

(** The same when the library never raises (hypothesis [H]). *)
Ltac next_call_total lib H HR :=
  match type of HR with
  | context [lib ?f ?a ?s] =>
      let E := fresh "E" in
      destruct (lib f a s) as [? [?|]] eqn:E;
      [ run_to_call HR | exfalso; apply (H f a s); rewrite E; reflexivity ]
  end.

(** The values returned in a trace, as a numbering of the calls. *)
Ltac numbering l :=
  let vals := eval cbv [map ev_ret] in
    (map (λ ev, match ev_ret ev with Returns x => x | Raises => VNone end) l) in
  constr:(λ i : nat, nth i vals VNone).

Section Runs.
Context {S obj : Type}.
Variable lib : library S obj.

(** With a library that never raises the script runs to its end, binds
    its six names and makes the twenty-two calls of [full_trace]. *)
Lemma run_total s0 :
  never_raises lib →
  ∃ v s', run lib s0 = (Ok tt, State (final_globals v) s', full_trace v).
Proof.
  intros H. remember (run lib s0) as R eqn:HR. run_to_call HR.
  do 22 (next_call_total lib H HR). subst R.
  match goal with
  | |- ∃ _ _, (_, _, ?l) = _ => let v := numbering l in exists v
  end.
  eexists. reflexivity.
Qed.

(** With any library, the run either is complete or stops at the first
    call that raises, with the exception of that call. *)
Lemma run_cases s0 :
  ∃ v,
    (run_result lib s0 = Ok tt ∧ run_trace lib s0 = full_trace v) ∨
    (∃ n ev, full_trace v !! n = Some ev ∧
             run_result lib s0 = Raise (LibraryError (ev_fn ev)) ∧
             run_trace lib s0 = cut_trace v n).
Proof.
  unfold run_result, run_trace.
  remember (run lib s0) as R eqn:HR. run_to_call HR.
  do 22 (next_call lib HR;
    [| subst R;
       match goal with
       | |- context [(_, _, ?l)] =>
           let v := numbering l in
           exists v; right; exists (Nat.pred (length l)); eexists;
           split; [reflexivity|split; reflexivity]
       end ]).
  subst R.
  match goal with
  | |- context [(_, _, ?l)] =>
      let v := numbering l in exists v; left; split; reflexivity
  end.
Qed.

Lemma run_trace_total s0 :
  never_raises lib → ∃ v, run_trace lib s0 = full_trace v.
Proof.
  intros H. destruct (run_total s0 H) as (v & s' & Hrun).
  exists v. unfold run_trace. by rewrite Hrun.
Qed.

End Runs.

(** The calls of a complete run are the calls of the script's text. *)
Lemma full_trace_fns {obj} (v : nat → value obj) :
  trace_fns (full_trace v) = script_fns.
Proof. reflexivity. Qed.

(** A run that is cut short has made a prefix of these calls. *)
Lemma cut_trace_fns {obj} (v : nat → value obj) n :
  trace_fns (cut_trace v n) = take (Datatypes.S n) script_fns.
Proof.
  do 22 (destruct n as [|n]; [reflexivity|]). reflexivity.
Qed.

Lemma trace_fns_prefix {S obj} (lib : library S obj) s0 :
  ∃ n, trace_fns (run_trace lib s0) = take n script_fns.
Proof.
  destruct (run_cases lib s0) as (v & [(_ & ->) | (n & ev & _ & _ & ->)]).
  - exists 22%nat. apply full_trace_fns.
  - exists (Datatypes.S n). apply cut_trace_fns.
Qed.

Lemma demo_lib_never_raises : never_raises demo_lib.
Proof. intros f vs s. destruct f; discriminate. Defined.

Lemma counting_lib_never_raises : never_raises counting_lib.
Proof. intros f vs [n c]. destruct f; discriminate. Defined.

(** When no window can be opened the script stops at the first
    [open_window], after the four quads. *)
Example run_no_display :
  run_result no_display_lib 0%nat = Raise (LibraryError open_window) ∧
  trace_fns (run_trace no_display_lib 0%nat) =
    [quad_from; quad_from; quad_from; quad_from; open_window].
Proof. split; reflexivity. Qed.

(** The script assigns to none of the names of the library functions it
    calls. *)
Lemma targets_not_library_names :
  Forall (λ x, x ∉ map libfn_name all_libfns) (omap stmt_target script).
Proof. apply (bool_decide_unpack _). by vm_compute. Qed.

(** ** Order of the steps *)

(** C1.  The script follows the eight-step order of the system overview:
    quad construction, window creation, window repositioning, screen clear,
    fill operations, screen refresh, timed delay, window teardown.  The steps
    of the sixteen statements, read in order, are [eight_steps]; in a run
    against a library that never raises, the calls that carry out a step
    (all calls but [window_width] and the color constants, which only
    compute arguments) carry out the same sequence of steps; the sequence
    never goes back to an earlier step and leaves no step out. *)
Theorem C1_eight_step_order {S obj} (lib : library S obj) (s0 : S) :
  never_raises lib →
  map stmt_step script = map Some eight_steps ∧
  omap step_of (trace_fns (run_trace lib s0)) = eight_steps ∧
  StronglySorted (λ a b, step_index a ≤ step_index b)%nat eight_steps ∧
  (∀ st, st ∈ eight_steps).
Proof.
  intros H. destruct (run_trace_total lib s0 H) as (v & ->).
  rewrite full_trace_fns. split; [reflexivity|]. split; [reflexivity|]. split.
  - unfold eight_steps. simpl.
    repeat (constructor; [|repeat constructor; simpl; lia]). constructor.
  - intros st. unfold eight_steps. simpl. destruct st; set_solver.
Qed.

Lemma C1_eight_step_order_witness :
  never_raises demo_lib ∧
  omap step_of (trace_fns (run_trace demo_lib 0%nat)) = eight_steps.
Proof.
  split; [exact demo_lib_never_raises|].
  exact (proj1 (proj2 (C1_eight_step_order demo_lib 0%nat demo_lib_never_raises))).
Defined.

(** ** Data of the script *)

(** C2, as worded, fails: the quads are not given by eight coordinate
    pairs. *)
Lemma C2_eight_pairs_counterexample : ¬ eight_coordinate_pairs script.
Proof. unfold eight_coordinate_pairs. vm_compute. discriminate. Qed.

(** C2, amended.  The script has four [quad_from] calls; each receives
    eight integer literals as flat positional arguments, that is four
    (x, y) pairs, so the quads are given by sixteen coordinate pairs.  The
    only other integer literals are the window sizes, the two zeros of the
    first window position, the zero y of the second and the delay. *)
Theorem C2_sixteen_coordinate_pairs :
  length (quad_args script) = 4%nat ∧
  Forall (λ args, length args = 8%nat ∧ Forall (λ a, is_Some (literal_int a)) args)
    (quad_args script) ∧
  quad_pairs script =
    [ [(400, 200); (300, 300); (300, 0); (200, 200)];
      [(400, 210); (310, 300); (600, 300); (400, 390)];
      [(200, 400); (300, 300); (300, 600); (400, 400)];
      [(200, 390); (290, 300); (0, 300); (200, 210)] ] ∧
  length (quad_coordinate_pairs script) = 16%nat ∧
  other_literals script =
    [ (open_window, [600; 600]); (open_window, [600; 600]);
      (move_window_to, [0; 0]); (move_window_to, [0]); (delay, [5000]) ].
Proof.
  split; [reflexivity|]. split.
  - repeat (constructor; [split; [reflexivity|repeat constructor; by eexists]|]).
    constructor.
  - repeat split; reflexivity.
Qed.

(** C3, as worded, fails: the script does not use four color constants. *)
Lemma C3_four_colors_counterexample : ¬ four_color_constants script.
Proof. unfold four_color_constants. vm_compute. discriminate. Qed.

(** C3, amended.  The script uses exactly five named color constants, each
    once: [color_white] as the argument of [clear_screen], and
    [color_black], [color_green], [color_red], [color_blue] as the colors
    of the four fills, in this order. *)
Theorem C3_five_color_constants :
  colors_used script =
    [color_white; color_black; color_green; color_red; color_blue] ∧
  filter (λ f, is_color f = true) script_fns =
    [color_white; color_black; color_green; color_red; color_blue] ∧
  map (λ c, (c.1, color_args c.2))
      (filter (λ c, color_args c.2 ≠ []) (top_calls script)) =
    [ (clear_screen, [color_white]);
      (fill_quad_on_window, [color_black]);
      (fill_quad_on_window, [color_green]);
      (fill_quad_on_window, [color_red]);
      (fill_quad_on_window, [color_blue]) ].
Proof. repeat split; reflexivity. Qed.

(** ** Window lifecycle *)

(** C4, as worded, fails: not every execution ends with
    [close_all_windows].  When the timed delay raises, both windows are
    open, the last call is [delay] and [close_all_windows] is not called. *)
Lemma C4_every_execution_counterexample :
  ¬ closes_windows_last delay_fails_lib 0%nat.
Proof.
  intros (pre & ev & Htr & Hf & _).
  assert (last (run_trace delay_fails_lib 0%nat) = Some ev) as Hlast.
  { rewrite Htr. apply last_snoc. }
  vm_compute in Hlast. injection Hlast as <-. discriminate Hf.
Qed.

(** C4, amended.  In every execution that completes (the library never
    raises), and in every execution in which [close_all_windows] is called
    at all, the call of [close_all_windows] is the last call of the run, it
    is the only one, and both [open_window] calls come before it. *)
Theorem C4_close_all_windows_last {S obj} (lib : library S obj) (s0 : S) :
  never_raises lib ∨ close_all_windows ∈ trace_fns (run_trace lib s0) →
  ∃ pre ev,
    run_trace lib s0 = pre ++ [ev] ∧
    ev_fn ev = close_all_windows ∧
    count_fn open_window pre = 2%nat ∧
    count_fn close_all_windows pre = 0%nat.
Proof.
  intros [H|H].
  - destruct (run_trace_total lib s0 H) as (v & ->).
    exists (take 21 (full_trace v)); eexists. repeat split; reflexivity.
  - destruct (run_cases lib s0) as (v & [(_ & Htr) | (n & ev & Hn & _ & Htr)]);
      rewrite Htr in *; clear Htr.
    + exists (take 21 (full_trace v)); eexists. repeat split; reflexivity.
    + rewrite cut_trace_fns in H.
      do 21 (destruct n as [|n];
             [exfalso; revert H; apply (bool_decide_unpack _); by vm_compute|]).
      destruct n as [|n]; [|discriminate Hn].
      exists (take 21 (full_trace v)); eexists. repeat split; reflexivity.
Qed.

Lemma C4_close_all_windows_last_witness :
  (never_raises demo_lib ∨
   close_all_windows ∈ trace_fns (run_trace demo_lib 0%nat)) ∧
  ∃ pre ev,
    run_trace demo_lib 0%nat = pre ++ [ev] ∧
    ev_fn ev = close_all_windows ∧
    count_fn open_window pre = 2%nat ∧
    count_fn close_all_windows pre = 0%nat.
Proof.
  split; [left; exact demo_lib_never_raises|].
  apply (C4_close_all_windows_last demo_lib 0%nat).
  left. exact demo_lib_never_raises.
Defined.

(** ** Completion *)

(** C5.  If no library call raises, the script runs to completion: the run
    ends without an exception after exactly the twenty-two library calls of
    the script's text, each of which returned. *)
Theorem C5_runs_to_completion {S obj} (lib : library S obj) (s0 : S) :
  never_raises lib →
  run_result lib s0 = Ok tt ∧
  trace_fns (run_trace lib s0) = script_fns ∧
  length (run_trace lib s0) = 22%nat ∧
  Forall (λ ev, ev_ret ev ≠ Raises) (run_trace lib s0).
Proof.
  intros H. destruct (run_total lib s0 H) as (v & s' & Hrun).
  unfold run_result, run_trace. rewrite Hrun. simpl.
  split; [reflexivity|]. split; [reflexivity|]. split; [reflexivity|].
  repeat constructor; discriminate.
Qed.

Lemma C5_runs_to_completion_witness :
  never_raises demo_lib ∧ run_result demo_lib 0%nat = Ok tt.
Proof.
  split; [exact demo_lib_never_raises|].
  exact (proj1 (C5_runs_to_completion demo_lib 0%nat demo_lib_never_raises)).
Defined.

(** ** Determinism *)

(** C6.  Two runs of the script, against any two libraries and from any two
    library states, in which the library gives the same answers make the
    same sequence of library calls with the same arguments, and end with
    the same result and the same global namespace. *)
Theorem C6_two_run_determinism {S1 S2 obj}
    (lib1 : library S1 obj) (lib2 : library S2 obj) (s1 : S1) (s2 : S2) :
  map ev_ret (run_trace lib1 s1) = map ev_ret (run_trace lib2 s2) →
  run_trace lib1 s1 = run_trace lib2 s2 ∧
  run_result lib1 s1 = run_result lib2 s2 ∧
  run_globals lib1 s1 = run_globals lib2 s2.
Proof.
  intros Heq.
  destruct (same_run_exec lib1 lib2 script (State ∅ s1) (State ∅ s2) [] [])
    as (Hr & Htr & Hg).
  - reflexivity.
  - rewrite !app_nil_r. exact Heq.
  - auto.
Qed.

Lemma C6_two_run_determinism_witness :
  map ev_ret (run_trace demo_lib 0%nat) =
    map ev_ret (run_trace counting_lib (0%nat, 0%nat)) ∧
  run_trace demo_lib 0%nat = run_trace counting_lib (0%nat, 0%nat).
Proof.
  split; [reflexivity|].
  exact (proj1 (C6_two_run_determinism demo_lib counting_lib 0%nat
                  (0%nat, 0%nat) eq_refl)).
Defined.

(** ** Calls per step *)

Lemma not_one_call_per_step : ¬ one_call_per_step script.
Proof. intros H. specialize (H QuadConstruction). vm_compute in H. discriminate. Qed.

Lemma not_args_not_computed : ¬ args_not_computed script.
Proof.
  unfold args_not_computed. intros H.
  apply Forall_lookup with (i := 7%nat)
    (x := (move_window_to,
           [EName "window2"; ECall window_width [EName "window1"]; ENum 0])) in H;
    [|reflexivity].
  simpl in H. inversion H as [|? ? _ H']. inversion H' as [|? ? Hcall _].
  discriminate Hcall.
Qed.

(** C7, as worded, fails: the steps are not one call each, and the second
    [move_window_to] has an argument computed by another library call. *)
Lemma C7_one_call_counterexample :
  ¬ (one_call_per_step script ∧ args_not_computed script).
Proof. intros [_ H]. exact (not_args_not_computed H). Qed.

(** C7, amended.  Each of the sixteen statements of the script is one
    direct call to the library: four, two, two, one, four, one, one and one
    statements for the eight steps.  Every argument is a literal or a name,
    or a library call on literals and names; the arguments of the latter
    kind are [window_width(window1)] in the second [move_window_to] and the
    five color constants in [clear_screen] and the four fills, so that the
    statements make 1, 1, 1, 1, 1, 1, 1, 2, 2, 2, 2, 2, 2, 1, 1, 1 library
    calls. *)
Theorem C7_calls_per_step :
  length script = 16%nat ∧
  length (top_calls script) = 16%nat ∧
  map (λ st, count_step st script) all_steps = [4; 2; 2; 1; 4; 1; 1; 1]%nat ∧
  Forall (λ c, Forall (λ a, is_shallow a = true) c.2) (top_calls script) ∧
  nested_calls script =
    [ (window_width, [EName "window1"]); (color_white, []);
      (color_black, []); (color_green, []); (color_red, []);
      (color_blue, []) ] ∧
  map (λ s, length (calls_of (stmt_expr s))) script =
    [1; 1; 1; 1; 1; 1; 1; 2; 2; 2; 2; 2; 2; 1; 1; 1]%nat.
Proof.
  split; [reflexivity|]. split; [reflexivity|]. split; [reflexivity|].
  split; [|split; reflexivity].
  repeat (constructor; [repeat constructor|]). constructor.
Qed.

(** ** Window placement *)

(** C8.  In a run against a library that never raises, the window moves are
    three consecutive calls: [move_window_to] on the first opened window
    with position (0, 0), [window_width] on the first opened window, and
    [move_window_to] on the second opened window with y = 0 and with x the
    value that this [window_width] call returned.  There is no other call
    of [move_window_to] or [window_width]. *)
Theorem C8_side_by_side {S obj} (lib : library S obj) (s0 : S) :
  never_raises lib →
  ∃ w1 w2 width r1 r2 pre post,
    run_trace lib s0 =
      pre ++ [ Event move_window_to [w1; VInt 0; VInt 0] r1;
               Event window_width [w1] (Returns width);
               Event move_window_to [w2; width; VInt 0] r2 ] ++ post ∧
    returns_of open_window pre = [w1; w2] ∧
    count_fn move_window_to (pre ++ post) = 0%nat ∧
    count_fn window_width (pre ++ post) = 0%nat.
Proof.
  intros H. destruct (run_trace_total lib s0 H) as (v & ->).
  exists (v 4%nat), (v 5%nat), (v 7%nat), (Returns (v 6%nat)), (Returns (v 8%nat)),
    (take 6 (full_trace v)), (drop 9 (full_trace v)).
  repeat split; reflexivity.
Qed.

Lemma C8_side_by_side_witness :
  never_raises demo_lib ∧
  ∃ w1 w2 width r1 r2 pre post,
    run_trace demo_lib 0%nat =
      pre ++ [ Event move_window_to [w1; VInt 0; VInt 0] r1;
               Event window_width [w1] (Returns width);
               Event move_window_to [w2; width; VInt 0] r2 ] ++ post ∧
    returns_of open_window pre = [w1; w2] ∧
    count_fn move_window_to (pre ++ post) = 0%nat ∧
    count_fn window_width (pre ++ post) = 0%nat.
Proof.
  split; [exact demo_lib_never_raises|].
  exact (C8_side_by_side demo_lib 0%nat demo_lib_never_raises).
Defined.

(** ** Window handles *)

Section WindowsKnown.
Context {obj : Type}.
Implicit Types (tr pre post : list (event obj)) (opened : list (value obj)).

Lemma returns_of_cons f (ev : event obj) tr :
  returns_of f (ev :: tr) = returns_of f [ev] ++ returns_of f tr.
Proof.
  unfold returns_of. rewrite !filter_cons, filter_nil.
  destruct (decide (ev_fn ev = f)); simpl; [|reflexivity].
  destruct (returned ev); reflexivity.
Qed.

(** What [windows_known] says about each call of the trace. *)
Lemma windows_known_split opened tr pre ev post :
  windows_known opened tr →
  tr = pre ++ ev :: post →
  takes_window (ev_fn ev) = true →
  ∃ w rest, ev_args ev = w :: rest ∧
            w ∈ opened ++ returns_of open_window pre.
Proof.
  revert opened tr. induction pre as [|ev0 pre IH]; intros opened tr Hk -> Hw.
  - destruct Hk as [Hev _]. destruct (Hev Hw) as (w & rest & ? & ?).
    exists w, rest. split; [done|]. by rewrite app_nil_r.
  - destruct Hk as [_ Hk].
    destruct (IH _ _ Hk eq_refl Hw) as (w & rest & ? & Hin).
    exists w, rest. split; [done|].
    by rewrite returns_of_cons, app_assoc.
Qed.

(** The property survives when the run is cut short by a call that
    raises. *)
Lemma windows_known_cut opened tr n ev :
  windows_known opened tr →
  tr !! n = Some ev →
  windows_known opened (take n tr ++ [raised ev]).
Proof.
  revert opened n. induction tr as [|ev0 tr IH]; intros opened n Hk Hn.
  - discriminate Hn.
  - destruct Hk as [Hev Hk]. destruct n as [|n]; simpl in *.
    + injection Hn as <-. split; [exact Hev|exact I].
    + split; [exact Hev|]. by apply IH.
Qed.

Lemma windows_known_full_trace (v : nat → value obj) :
  windows_known [] (full_trace v).
Proof.
  unfold full_trace. simpl.
  repeat (split;
    [intros Hw;
     first [ discriminate Hw
           | eexists _, _; split; [reflexivity|];
             apply list_elem_of_In; vm_compute; intuition ]|]).
  exact I.
Qed.

End WindowsKnown.

(** C9.  In every execution, with any library, every call of
    [move_window_to], [window_width] or [fill_quad_on_window] has as its
    window argument a value that an earlier [open_window] call of the same
    run returned. *)
Theorem C9_windows_opened_before_use {S obj} (lib : library S obj) (s0 : S)
    (pre post : list (event obj)) (ev : event obj) :
  run_trace lib s0 = pre ++ ev :: post →
  takes_window (ev_fn ev) = true →
  ∃ w rest, ev_args ev = w :: rest ∧ w ∈ returns_of open_window pre.
Proof.
  intros Htr Hw.
  assert (windows_known [] (run_trace lib s0)) as Hk.
  { destruct (run_cases lib s0) as (v & [(_ & ->) | (n & ev' & Hn & _ & ->)]).
    - apply windows_known_full_trace.
    - unfold cut_trace. rewrite Hn.
      apply windows_known_cut; [apply windows_known_full_trace|exact Hn]. }
  exact (windows_known_split [] _ pre ev post Hk Htr Hw).
Qed.

Lemma C9_windows_opened_before_use_witness :
  ∃ pre ev post,
    run_trace demo_lib 0%nat = pre ++ ev :: post ∧
    takes_window (ev_fn ev) = true ∧
    ∃ w rest, ev_args ev = w :: rest ∧ w ∈ returns_of open_window pre.
Proof.
  exists (take 8 (run_trace demo_lib 0%nat)),
    (Event move_window_to [VObj 5%nat; VInt 600; VInt 0] (Returns VNone)),
    (drop 9 (run_trace demo_lib 0%nat)).
  split; [reflexivity|]. split; [reflexivity|].
  apply (C9_windows_opened_before_use demo_lib 0%nat
           (take 8 (run_trace demo_lib 0%nat)) (drop 9 (run_trace demo_lib 0%nat)));
    reflexivity.
Defined.

(** ** Clearing, filling, refreshing *)

(** C10.  In a run against a library that never raises, [clear_screen] and
    [refresh_screen] are each called exactly once, all four
    [fill_quad_on_window] calls lie between the two, and the fills go, in
    order, to the first opened window twice and to the second opened window
    twice. *)
Theorem C10_fills_between_clear_and_refresh {S obj} (lib : library S obj) (s0 : S) :
  never_raises lib →
  ∃ w1 w2 pre c mid r post,
    run_trace lib s0 = pre ++ [c] ++ mid ++ [r] ++ post ∧
    ev_fn c = clear_screen ∧
    ev_fn r = refresh_screen ∧
    count_fn clear_screen (run_trace lib s0) = 1%nat ∧
    count_fn refresh_screen (run_trace lib s0) = 1%nat ∧
    count_fn fill_quad_on_window mid = 4%nat ∧
    count_fn fill_quad_on_window (pre ++ post) = 0%nat ∧
    returns_of open_window pre = [w1; w2] ∧
    omap window_arg (filter (λ ev, ev_fn ev = fill_quad_on_window) mid) =
      [w1; w1; w2; w2].
Proof.
  intros H. destruct (run_trace_total lib s0 H) as (v & ->).
  exists (v 4%nat), (v 5%nat), (take 10 (full_trace v)); eexists.
  exists (take 8 (drop 11 (full_trace v))); eexists.
  exists (drop 20 (full_trace v)).
  repeat split; reflexivity.
Qed.

Lemma C10_fills_between_clear_and_refresh_witness :
  never_raises demo_lib ∧
  count_fn fill_quad_on_window (run_trace demo_lib 0%nat) = 4%nat ∧
  ∃ w1 w2 pre c mid r post,
    run_trace demo_lib 0%nat = pre ++ [c] ++ mid ++ [r] ++ post ∧
    ev_fn c = clear_screen ∧
    ev_fn r = refresh_screen ∧
    count_fn clear_screen (run_trace demo_lib 0%nat) = 1%nat ∧
    count_fn refresh_screen (run_trace demo_lib 0%nat) = 1%nat ∧
    count_fn fill_quad_on_window mid = 4%nat ∧
    count_fn fill_quad_on_window (pre ++ post) = 0%nat ∧
    returns_of open_window pre = [w1; w2] ∧
    omap window_arg (filter (λ ev, ev_fn ev = fill_quad_on_window) mid) =
      [w1; w1; w2; w2].
Proof.
  split; [exact demo_lib_never_raises|]. split; [reflexivity|].
  exact (C10_fills_between_clear_and_refresh demo_lib 0%nat demo_lib_never_raises).
Defined.

(** * Further properties of the script *)

(** ** Exceptions *)

Lemma full_trace_returns {obj} (v : nat → value obj) :
  Forall (λ ev, ev_ret ev ≠ Raises) (full_trace v).
Proof. repeat constructor; discriminate. Qed.

(** Whatever the library does, a run never ends with a [NameError]: every
    name the script reads is the target of an earlier assignment, and no
    name is assigned twice. *)
Theorem never_name_error {S obj} (lib : library S obj) (s0 : S) (x : string) :
  bound_before_use [] script = true ∧
  NoDup (omap stmt_target script) ∧
  run_result lib s0 ≠ Raise (NameError x).
Proof.
  split; [reflexivity|]. split.
  - apply (bool_decide_unpack _). by vm_compute.
  - destruct (run_cases lib s0) as (v & [(-> & _) | (n & ev & _ & -> & _)]);
      discriminate.
Qed.

(** The script stops at the first exception: when a run ends with an
    exception, it is the exception of the last library call made, that call
    raised, and every call before it returned. *)
Theorem first_exception_stops_script {S obj} (lib : library S obj) (s0 : S)
    (e : exn) :
  run_result lib s0 = Raise e →
  ∃ pre ev,
    run_trace lib s0 = pre ++ [ev] ∧
    e = LibraryError (ev_fn ev) ∧
    ev_ret ev = Raises ∧
    Forall (λ ev', ev_ret ev' ≠ Raises) pre ∧
    (length pre < 22)%nat.
Proof.
  intros Hres.
  destruct (run_cases lib s0) as (v & [(Hok & _) | (n & ev & Hn & Hr & ->)]).
  - rewrite Hok in Hres. discriminate.
  - rewrite Hr in Hres. injection Hres as <-.
    unfold cut_trace. rewrite Hn.
    exists (take n (full_trace v)), (raised ev).
    split; [reflexivity|]. split; [reflexivity|]. split; [reflexivity|]. split.
    + apply Forall_take, full_trace_returns.
    + apply lookup_lt_Some in Hn. rewrite length_take. simpl in Hn. lia.
Qed.

Lemma first_exception_stops_script_witness :
  run_result no_display_lib 0%nat = Raise (LibraryError open_window) ∧
  ∃ pre ev,
    run_trace no_display_lib 0%nat = pre ++ [ev] ∧
    LibraryError open_window = LibraryError (ev_fn ev) ∧
    ev_ret ev = Raises ∧
    Forall (λ ev', ev_ret ev' ≠ Raises) pre ∧
    (length pre < 22)%nat.
Proof.
  split; [reflexivity|].
  exact (first_exception_stops_script no_display_lib 0%nat
           (LibraryError open_window) eq_refl).
Defined.

(** Whatever the library returns or raises, the functions the script calls
    are an initial segment of the sequence of calls of its text, at least
    the first; the run ends without an exception exactly when the segment is
    the whole sequence and every call returned. *)
Theorem calls_prefix_of_script {S obj} (lib : library S obj) (s0 : S) :
  trace_fns (run_trace lib s0) `prefix_of` script_fns ∧
  run_trace lib s0 ≠ [] ∧
  (run_result lib s0 = Ok tt ↔
   trace_fns (run_trace lib s0) = script_fns ∧
   Forall (λ ev, ev_ret ev ≠ Raises) (run_trace lib s0)).
Proof.
  destruct (run_cases lib s0) as (v & [(Hok & Htr) | (n & ev & Hn & Hr & Htr)]);
    rewrite Htr.
  - split; [by rewrite full_trace_fns|]. split; [discriminate|].
    split; [intros _|done].
    split; [apply full_trace_fns|apply full_trace_returns].
  - split; [|split].
    + rewrite cut_trace_fns. apply prefix_take.
    + unfold cut_trace. rewrite Hn. by destruct (take n (full_trace v)).
    + rewrite Hr. split; [discriminate|]. intros [_ Hall]. exfalso.
      unfold cut_trace in Hall. rewrite Hn in Hall.
      apply Forall_app in Hall as [_ Hall]. by inversion Hall.
Qed.

(** ** Windows left open *)

(** The script has no cleanup on failure: when a call other than
    [close_all_windows] raises, [close_all_windows] is never called, whether
    or not windows have been opened by then. *)
Theorem windows_not_closed_on_failure {S obj} (lib : library S obj) (s0 : S)
    (f : libfn) :
  run_result lib s0 = Raise (LibraryError f) →
  f ≠ close_all_windows →
  count_fn close_all_windows (run_trace lib s0) = 0%nat.
Proof.
  intros Hres Hf.
  destruct (run_cases lib s0) as (v & [(Hok & _) | (n & ev & Hn & Hr & ->)]).
  - rewrite Hok in Hres. discriminate.
  - rewrite Hr in Hres. injection Hres as <-.
    do 22 (destruct n as [|n];
           [injection Hn as <-; first [by destruct Hf | reflexivity]|]).
    discriminate Hn.
Qed.

Lemma windows_not_closed_on_failure_witness :
  run_result delay_fails_lib 0%nat = Raise (LibraryError delay) ∧
  delay ≠ close_all_windows ∧
  length (returns_of open_window (run_trace delay_fails_lib 0%nat)) = 2%nat ∧
  count_fn close_all_windows (run_trace delay_fails_lib 0%nat) = 0%nat.
Proof.
  split; [reflexivity|]. split; [discriminate|]. split; [reflexivity|].
  apply (windows_not_closed_on_failure delay_fails_lib 0%nat delay);
    [reflexivity|discriminate].
Defined.

(** ** The global namespace *)

Lemma run_from_empty {S obj} (lib : library S obj) (s0 : S) :
  run_from lib ∅ s0 = run lib s0.
Proof. reflexivity. Qed.

(** A complete run, started in any namespace, adds six bindings to it and
    changes nothing else: [q1] to [q4] are bound to the values the four
    [quad_from] calls returned, in order, [window1] and [window2] to the
    values the two [open_window] calls returned, and every other name keeps
    the binding it had, or stays unbound. *)
Theorem globals_after_run {S obj} (lib : library S obj)
    (g0 : gmap string (value obj)) (s0 : S) :
  never_raises lib →
  ∃ q1 q2 q3 q4 w1 w2,
    returns_of quad_from (run_from lib g0 s0).2 = [q1; q2; q3; q4] ∧
    returns_of open_window (run_from lib g0 s0).2 = [w1; w2] ∧
    (run_from lib g0 s0).1.1 = Ok tt ∧
    globals (run_from lib g0 s0).1.2 =
      list_to_map [ ("q1"%string, q1); ("q2"%string, q2); ("q3"%string, q3);
                    ("q4"%string, q4); ("window1"%string, w1);
                    ("window2"%string, w2) ] ∪ g0.
Proof.
  intros H. remember (run_from lib g0 s0) as R eqn:HR.
  unfold run_from in HR. run_to_call HR.
  do 22 (next_call_total lib H HR). subst R. simpl.
  eexists _, _, _, _, _, _.
  split; [reflexivity|]. split; [reflexivity|]. split; [reflexivity|].
  cbn [list_to_map foldr fst snd uncurry].
  apply map_eq. intros x. rewrite lookup_union.
  assert (∀ o : option (value obj), None ∪ o = o) as Hnone by (by intros []).
  destruct (decide (x = "q1"%string)) as [->|?];
    [repeat (first [ rewrite lookup_insert_eq
                    | rewrite lookup_insert_ne by done ]);
     by destruct (g0 !! _)|].
  destruct (decide (x = "q2"%string)) as [->|?];
    [repeat (first [ rewrite lookup_insert_eq
                    | rewrite lookup_insert_ne by done ]);
     by destruct (g0 !! _)|].
  destruct (decide (x = "q3"%string)) as [->|?];
    [repeat (first [ rewrite lookup_insert_eq
                    | rewrite lookup_insert_ne by done ]);
     by destruct (g0 !! _)|].
  destruct (decide (x = "q4"%string)) as [->|?];
    [repeat (first [ rewrite lookup_insert_eq
                    | rewrite lookup_insert_ne by done ]);
     by destruct (g0 !! _)|].
  destruct (decide (x = "window1"%string)) as [->|?];
    [repeat (first [ rewrite lookup_insert_eq
                    | rewrite lookup_insert_ne by done ]);
     by destruct (g0 !! _)|].
  destruct (decide (x = "window2"%string)) as [->|?];
    [repeat (first [ rewrite lookup_insert_eq
                    | rewrite lookup_insert_ne by done ]);
     by destruct (g0 !! _)|].
  repeat (rewrite lookup_insert_ne by done).
  by rewrite lookup_empty, Hnone.
Qed.

Lemma globals_after_run_witness :
  never_raises demo_lib ∧
  ∃ q1 q2 q3 q4 w1 w2,
    returns_of quad_from (run_from demo_lib main_namespace 0%nat).2 =
      [q1; q2; q3; q4] ∧
    returns_of open_window (run_from demo_lib main_namespace 0%nat).2 =
      [w1; w2] ∧
    (run_from demo_lib main_namespace 0%nat).1.1 = Ok tt ∧
    globals (run_from demo_lib main_namespace 0%nat).1.2 =
      list_to_map [ ("q1"%string, q1); ("q2"%string, q2); ("q3"%string, q3);
                    ("q4"%string, q4); ("window1"%string, w1);
                    ("window2"%string, w2) ] ∪ main_namespace.
Proof.
  split; [exact demo_lib_never_raises|].
  exact (globals_after_run demo_lib main_namespace 0%nat demo_lib_never_raises).
Defined.

(** ** What is drawn *)

(** In a complete run each quad is drawn exactly once, in the order the
    quads were made: the quads given to the four fills are the values the
    four [quad_from] calls returned, in order; the colors given to them are
    the values returned by [color_black], [color_green], [color_red] and
    [color_blue]; and [clear_screen] is given the value [color_white]
    returned. *)
Theorem every_quad_drawn_once {S obj} (lib : library S obj) (s0 : S) :
  never_raises lib →
  let tr := run_trace lib s0 in
  let fills := filter (λ ev, ev_fn ev = fill_quad_on_window) tr in
  length fills = 4%nat ∧
  omap (λ ev, ev_args ev !! 2%nat) fills = returns_of quad_from tr ∧
  omap (λ ev, ev_args ev !! 1%nat) fills =
    returns_of color_black tr ++ returns_of color_green tr ++
    returns_of color_red tr ++ returns_of color_blue tr ∧
  map ev_args (filter (λ ev, ev_fn ev = clear_screen) tr) =
    [returns_of color_white tr].
Proof.
  intros H. destruct (run_trace_total lib s0 H) as (v & ->).
  repeat split; reflexivity.
Qed.

Lemma every_quad_drawn_once_witness :
  never_raises demo_lib ∧
  omap (λ ev, ev_args ev !! 2%nat)
    (filter (λ ev, ev_fn ev = fill_quad_on_window) (run_trace demo_lib 0%nat)) =
  returns_of quad_from (run_trace demo_lib 0%nat).
Proof.
  split; [exact demo_lib_never_raises|].
  exact (proj1 (proj2 (every_quad_drawn_once demo_lib 0%nat demo_lib_never_raises))).
Defined.

Section EachCall.
Context {obj : Type}.
Implicit Types (P : list (event obj) → event obj → Prop).
Implicit Types (seen tr pre post : list (event obj)).

(** What [each_call] says about each call of the trace. *)
Lemma each_call_split P seen tr pre ev post :
  each_call P seen tr →
  tr = pre ++ ev :: post →
  P (seen ++ pre) ev.
Proof.
  revert seen tr. induction pre as [|ev0 pre IH]; intros seen tr Hall ->.
  - destruct Hall as [Hev _]. by rewrite app_nil_r.
  - destruct Hall as [_ Hall].
    specialize (IH _ _ Hall eq_refl). by rewrite <- app_assoc in IH.
Qed.

(** A property that does not look at the answer of the call itself
    survives when the run is cut short by a call that raises. *)
Lemma each_call_cut P seen tr n ev :
  (∀ seen' ev', P seen' ev' → P seen' (raised ev')) →
  each_call P seen tr →
  tr !! n = Some ev →
  each_call P seen (take n tr ++ [raised ev]).
Proof.
  intros HP. revert seen n.
  induction tr as [|ev0 tr IH]; intros seen n Hall Hn.
  - discriminate Hn.
  - destruct Hall as [Hev Hall]. destruct n as [|n]; simpl in *.
    + injection Hn as <-. split; [by apply HP|exact I].
    + split; [exact Hev|]. by apply IH.
Qed.

Lemma well_sourced_full_trace (v : nat → value obj) :
  each_call well_sourced [] (full_trace v).
Proof.
  unfold full_trace. simpl.
  repeat (split;
    [split; intros Hf;
     first [ discriminate Hf
           | eexists; split; reflexivity
           | eexists _, _, _, _; split; [reflexivity|];
             split; [apply list_elem_of_In; vm_compute; intuition|];
             split; [reflexivity|]; split; reflexivity ]|]).
  exact I.
Qed.

Lemma drawn_on_cleared_full_trace (v : nat → value obj) :
  each_call drawn_on_cleared [] (full_trace v).
Proof.
  unfold full_trace. simpl.
  repeat (split;
    [intros Hf; first [discriminate Hf | split; reflexivity]|]).
  exact I.
Qed.

End EachCall.

(** In every execution, with any library, a [fill_quad_on_window] call is
    given a quad that an earlier [quad_from] call returned and the color
    that the call just before it, a color constant, returned; a
    [clear_screen] call is given the color that the call just before it,
    [color_white], returned.  The script passes no object of its own
    making. *)
Theorem drawing_arguments_from_library {S obj} (lib : library S obj) (s0 : S)
    (pre post : list (event obj)) (ev : event obj) :
  run_trace lib s0 = pre ++ ev :: post →
  well_sourced pre ev.
Proof.
  intros Htr.
  assert (each_call well_sourced [] (run_trace lib s0)) as Hall.
  { destruct (run_cases lib s0) as (v & [(_ & ->) | (n & ev' & Hn & _ & ->)]).
    - apply well_sourced_full_trace.
    - unfold cut_trace. rewrite Hn.
      apply each_call_cut; [|apply well_sourced_full_trace|exact Hn].
      intros seen' ev'' HP. exact HP. }
  exact (each_call_split well_sourced [] _ pre ev post Hall Htr).
Qed.

Lemma drawing_arguments_from_library_witness :
  ∃ pre ev post,
    run_trace demo_lib 0%nat = pre ++ ev :: post ∧
    ev_fn ev = fill_quad_on_window ∧
    well_sourced pre ev.
Proof.
  exists (take 12 (run_trace demo_lib 0%nat)),
    (Event fill_quad_on_window [VObj 4%nat; VObj 7%nat; VObj 0%nat] (Returns VNone)),
    (drop 13 (run_trace demo_lib 0%nat)).
  split; [reflexivity|]. split; [reflexivity|].
  apply (drawing_arguments_from_library demo_lib 0%nat
           (take 12 (run_trace demo_lib 0%nat))
           (drop 13 (run_trace demo_lib 0%nat))).
  reflexivity.
Defined.

(** In every execution, with any library, also one that raises part-way,
    a [fill_quad_on_window] call is made only after the one [clear_screen]
    call has returned and before any [refresh_screen] call. *)
Theorem fills_only_on_cleared_screen {S obj} (lib : library S obj) (s0 : S)
    (pre post : list (event obj)) (ev : event obj) :
  run_trace lib s0 = pre ++ ev :: post →
  ev_fn ev = fill_quad_on_window →
  length (returns_of clear_screen pre) = 1%nat ∧
  count_fn refresh_screen pre = 0%nat.
Proof.
  intros Htr.
  assert (each_call drawn_on_cleared [] (run_trace lib s0)) as Hall.
  { destruct (run_cases lib s0) as (v & [(_ & ->) | (n & ev' & Hn & _ & ->)]).
    - apply drawn_on_cleared_full_trace.
    - unfold cut_trace. rewrite Hn.
      apply each_call_cut; [|apply drawn_on_cleared_full_trace|exact Hn].
      intros seen' ev'' HP. exact HP. }
  exact (each_call_split drawn_on_cleared [] _ pre ev post Hall Htr).
Qed.

Lemma fills_only_on_cleared_screen_witness :
  ∃ pre ev post,
    run_trace delay_fails_lib 0%nat = pre ++ ev :: post ∧
    ev_fn ev = fill_quad_on_window ∧
    length (returns_of clear_screen pre) = 1%nat ∧
    count_fn refresh_screen pre = 0%nat.
Proof.
  exists (take 18 (run_trace delay_fails_lib 0%nat)),
    (Event fill_quad_on_window [VObj 5%nat; VObj 10%nat; VObj 3%nat] (Returns VNone)),
    (drop 19 (run_trace delay_fails_lib 0%nat)).
  split; [reflexivity|]. split; [reflexivity|].
  apply (fills_only_on_cleared_screen delay_fails_lib 0%nat
           (take 18 (run_trace delay_fails_lib 0%nat))
           (drop 19 (run_trace delay_fails_lib 0%nat))
           (Event fill_quad_on_window [VObj 5%nat; VObj 10%nat; VObj 3%nat]
              (Returns VNone)));
    reflexivity.
Defined.

(** ** Geometry of the picture *)

(** Every vertex of every quad lies within the size the windows are opened
    with: its x is between 0 and the width and its y between 0 and the
    height of each [open_window] call. *)
Theorem quads_within_windows :
  window_sizes script ≠ [] ∧
  ∀ p sz,
    p ∈ quad_coordinate_pairs script →
    sz ∈ window_sizes script →
    0 ≤ p.1 ≤ sz.1 ∧ 0 ≤ p.2 ≤ sz.2.
Proof.
  split; [discriminate|].
  assert (Forall (λ p, Forall (λ sz, 0 ≤ p.1 ≤ sz.1 ∧ 0 ≤ p.2 ≤ sz.2)
                         (window_sizes script))
            (quad_coordinate_pairs script)) as Hall.
  { apply (bool_decide_unpack _). by vm_compute. }
  intros p sz Hp Hsz.
  rewrite Forall_forall in Hall. specialize (Hall p Hp).
  rewrite Forall_forall in Hall. exact (Hall sz Hsz).
Qed.

Lemma quads_within_windows_witness :
  (300, 0) ∈ quad_coordinate_pairs script ∧
  (600, 600) ∈ window_sizes script ∧
  0 ≤ 300 ≤ 600 ∧ 0 ≤ 0 ≤ 600.
Proof.
  assert ((300, 0) ∈ quad_coordinate_pairs script) as Hp.
  { apply (bool_decide_unpack _). by vm_compute. }
  assert ((600, 600) ∈ window_sizes script) as Hsz.
  { apply (bool_decide_unpack _). by vm_compute. }
  split; [exact Hp|]. split; [exact Hsz|].
  exact (proj2 quads_within_windows (300, 0) (600, 600) Hp Hsz).
Defined.

